(** * extract_pdf.py: text extraction from a PDF and its command-line entry point

    A shallow embedding of [src/extract_pdf.py].  The script has one function,
    [extract_text_from_pdf], and a [__main__] block.  Both only talk to
    external collaborators: PyPDF2's [PdfReader], [os.path.exists],
    [sys.argv], [print] and [sys.exit].  The collaborators are parameters of
    the model (record [World]); the control flow of the script is translated
    statement by statement.

    Two kinds of strings occur.  Command-line arguments and what is written
    to standard output are byte strings ([String.string]).  A Python [str]
    ([pystr]) is the sequence of the bytes that standard output writes for
    it, in which a character that standard output cannot encode stays as it
    is.  Standard output encodes in UTF-8 and writes a command-line argument
    back as the bytes it was given as (error handler [surrogateescape]); what
    it cannot encode is a lone surrogate, and [print] raises on it. *)

From Stdlib Require Import String Ascii List ZArith NArith Lia Bool.
Import ListNotations.
Local Open Scope string_scope.

(** ** Python text *)

(** One unit of a Python [str]: a byte of its encoding, or a lone surrogate
    code point (such as U+D800), which has no encoding. *)
Inductive pychar : Type :=
| Byte (b : ascii)
| LoneSurrogate (code_point : N).

Inductive pystr : Type :=
| EmptyStr
| Str (c : pychar) (rest : pystr).

(** [a + b] on Python strings. *)
Fixpoint pystr_append (a b : pystr) : pystr :=
  match a with
  | EmptyStr => b
  | Str c rest => Str c (pystr_append rest b)
  end.

Fixpoint pystr_length (s : pystr) : nat :=
  match s with
  | EmptyStr => 0
  | Str _ rest => S (pystr_length rest)
  end.

(** The Python string that is written as the bytes [s]. *)
Fixpoint of_bytes (s : string) : pystr :=
  match s with
  | EmptyString => EmptyStr
  | String b rest => Str (Byte b) (of_bytes rest)
  end.
Coercion of_bytes : string >-> pystr.

(** The encoder of standard output: the bytes of the text, unless it holds a
    lone surrogate. *)
Fixpoint encode (s : pystr) : option string :=
  match s with
  | EmptyStr => Some EmptyString
  | Str (Byte b) rest => option_map (String b) (encode rest)
  | Str (LoneSurrogate _) _ => None
  end.

Definition pystr_of_list_byte (l : list Byte.byte) : pystr :=
  of_bytes (string_of_list_byte l).

Definition list_byte_of_pystr (s : pystr) : option (list Byte.byte) :=
  option_map list_byte_of_string (encode s).

Declare Scope pystr_scope.
Delimit Scope pystr_scope with pystr.
String Notation pystr pystr_of_list_byte list_byte_of_pystr : pystr_scope.
Notation "a ++ b" := (pystr_append a b) : pystr_scope.

(** ** Python results: a value or a raised exception *)

(** An instance of Python's class [Exception], as the decoding library and
    the interpreter raise them on a failure ([PdfReadError],
    [FileNotFoundError], [ValueError], ...).  [exc_class] is the name of the
    instance's class and [str] is what [str(e)] returns. *)
Record Exception : Type := mkException {
  exc_class : string;
  str : pystr
}.

Inductive Py (A : Type) : Type :=
| Ok (a : A)
| Raise (e : Exception).
Arguments Ok {A} & a.
Arguments Raise {A} e.

Definition py_bind {A B : Type} (c : Py A) (k : A -> Py B) : Py B :=
  match c with
  | Ok a => k a
  | Raise e => Raise e
  end.

(** [try: body / except Exception as e: handler e]. *)
Definition try_except {A : Type} (body : Py A) (handler : Exception -> Py A)
  : Py A :=
  match body with
  | Ok a => Ok a
  | Raise e => handler e
  end.

Declare Scope py_scope.
Delimit Scope py_scope with py.
Notation "x <- c ;; k" := (py_bind c (fun x => k))
  (at level 100, c at next level, right associativity) : py_scope.

(** ** The decoding library, as the script uses it *)

(** The newline character, Python's ["\n"]. *)
Definition nl : string := String "010"%char EmptyString.

(** A page object: the only thing the script does with it is to call
    [page.extract_text()], which returns a text or raises. *)
Record Page : Type := mkPage {
  extract_text : Py pystr
}.

(** What iterating [reader.pages] does, step by step: the iteration ends, or
    it hands out the next page and goes on, or fetching the next page
    raises. *)
Inductive PageIter : Type :=
| StopIteration
| NextPage (page : Page) (rest : PageIter)
| NextRaises (e : Exception).

Record Reader : Type := mkReader {
  pages : PageIter
}.

(** The environment of one run of the script. *)
Record World : Type := mkWorld {
  argv : list string;                 (* sys.argv *)
  path_exists : string -> bool;       (* os.path.exists *)
  PdfReader : string -> Py Reader     (* PyPDF2.PdfReader(path) *)
}.

(** ** The Extractor *)

Module Extractor.

Local Open Scope pystr_scope.

(** The body of the [for page in reader.pages:] loop, iterated; [text] is the
    accumulator variable of the source. *)
Fixpoint for_page_in (it : PageIter) (text : pystr) : Py pystr :=
  match it with
  | StopIteration => Ok text
  | NextPage page rest =>
      (t <- extract_text page ;;
       for_page_in rest (text ++ (t ++ nl)))%py
  | NextRaises e => Raise e
  end.

Definition extract_text_from_pdf (w : World) (pdf_path : string) : Py pystr :=
  try_except
    (reader <- PdfReader w pdf_path ;;
     text <- for_page_in (pages reader) "" ;;
     Ok text)%py
    (fun e => Ok ("Erro ao ler PDF: " ++ str e)).

End Extractor.
Export Extractor.

(** ** The entry point *)

Module EntryPoint.

(** What a run of the script has done so far: the bytes written to standard
    output, and the paths [extract_text_from_pdf] was called with (a log kept
    by the model, to state that a branch does not reach the Extractor). *)
Record Process : Type := mkProcess {
  stdout : string;
  extractor_calls : list string
}.

(** How a script stops before its last statement: [sys.exit(code)], or an
    exception that nothing catches. *)
Inductive Ending : Type :=
| SystemExit (code : Z)
| Uncaught (e : Exception).

Inductive Step (A : Type) : Type :=
| Continue (a : A) (p : Process)
| Stopped (by_ : Ending) (p : Process).
Arguments Continue {A} a p.
Arguments Stopped {A} by_ p.

Definition Proc (A : Type) : Type := Process -> Step A.

Definition ret {A : Type} (a : A) : Proc A := fun p => Continue a p.

Definition bind {A B : Type} (c : Proc A) (k : A -> Proc B) : Proc B :=
  fun p =>
    match c p with
    | Continue a p' => k a p'
    | Stopped by_ p' => Stopped by_ p'
    end.

Declare Scope proc_scope.
Delimit Scope proc_scope with proc.
Notation "x <- c ;; k" := (bind c (fun x => k))
  (at level 100, c at next level, right associativity) : proc_scope.
Notation "c ;; k" := (bind c (fun _ => k))
  (at level 100, right associativity) : proc_scope.

(** What [print] raises when the text has no encoding; the script has no
    handler around its [print] calls.  [str] keeps the reason only. *)
Definition UnicodeEncodeError : Exception :=
  mkException "UnicodeEncodeError" "surrogates not allowed".

(** [print(s)]: the text is encoded and, followed by a newline, goes to
    standard output; when it cannot be encoded nothing is written and
    [UnicodeEncodeError] is raised. *)
Definition print (s : pystr) : Proc unit :=
  fun p =>
    match encode s with
    | Some bytes =>
        Continue tt (mkProcess (stdout p ++ (bytes ++ nl)) (extractor_calls p))
    | None => Stopped (Uncaught UnicodeEncodeError) p
    end.

(** [sys.exit(code)]. *)
Definition sys_exit {A : Type} (code : Z) : Proc A :=
  fun p => Stopped (SystemExit code) p.

(** A Python expression evaluated at the top level of the script: a raised
    exception is caught by nothing there. *)
Definition eval {A : Type} (c : Py A) : Proc A :=
  fun p =>
    match c with
    | Ok a => Continue a p
    | Raise e => Stopped (Uncaught e) p
    end.

(** [l[i]] on a Python list. *)
Definition list_index (l : list string) (i : nat) : Py string :=
  match nth_error l i with
  | Some x => Ok x
  | None => Raise (mkException "IndexError" "list index out of range")
  end.

(** The call [extract_text_from_pdf(pdf_path)], logged. *)
Definition call_extract_text_from_pdf (w : World) (pdf_path : string)
  : Proc pystr :=
  fun p =>
    eval (extract_text_from_pdf w pdf_path)
         (mkProcess (stdout p) (extractor_calls p ++ [pdf_path])).

(** [if cond: body], with nothing to do otherwise. *)
Definition when (cond : bool) (body : Proc unit) : Proc unit :=
  if cond then body else ret tt.

Definition usage_message : string :=
  "Uso: python extract_pdf.py <caminho_do_pdf>".

(** The literal part of the f-string of the source, as UTF-8 bytes (the
    letter a with tilde is the two bytes 195 and 163). *)
Definition not_found_prefix : string := "Arquivo não encontrado: ".

(** The [if __name__ == "__main__":] block. *)
Definition main (w : World) : Proc unit :=
  (when (length (argv w) <? 2)%nat
     (print usage_message ;;
      sys_exit 1) ;;
   pdf_path <- eval (list_index (argv w) 1) ;;
   when (negb (path_exists w pdf_path))
     (print (not_found_prefix ++ pdf_path) ;;
      sys_exit 1) ;;
   text <- call_extract_text_from_pdf w pdf_path ;;
   print text)%proc.

(** One run of the script in the world [w], from an empty standard output. *)
Definition run (w : World) : Step unit := main w (mkProcess "" []).

Definition final {A : Type} (s : Step A) : Process :=
  match s with
  | Continue _ p => p
  | Stopped _ p => p
  end.

(** The exit status of the Python process: 0 when the script runs to its end,
    the argument of [sys.exit], 1 after an uncaught exception. *)
Definition exit_status {A : Type} (s : Step A) : Z :=
  match s with
  | Continue _ _ => 0
  | Stopped (SystemExit code) _ => code
  | Stopped (Uncaught _) _ => 1
  end.

Definition output (w : World) : string := stdout (final (run w)).
Definition status (w : World) : Z := exit_status (run w).
Definition calls (w : World) : list string := extractor_calls (final (run w)).

End EntryPoint.
Export EntryPoint.

(** ** Sample worlds *)

Module Samples.

Definition text_page (t : pystr) : Page := mkPage (Ok t).

Definition three_pages : Reader :=
  mkReader (NextPage (text_page "Artigo 1")
           (NextPage (text_page "")
           (NextPage (text_page "Artigo 3") StopIteration))).

Definition broken_mid : Reader :=
  mkReader (NextPage (text_page "Artigo 1")
           (NextPage (mkPage (Raise (mkException "PdfReadError" "Invalid Elementary Object")))
           (NextPage (text_page "Artigo 3") StopIteration))).

Definition library (path : string) : Py Reader :=
  if (path =? "leis.pdf") then Ok three_pages
  else if (path =? "quebrado.pdf") then Ok broken_mid
  else if (path =? "vazio.pdf") then Ok (mkReader StopIteration)
  else if (path =? "imagem.pdf") then Ok (mkReader (NextPage (text_page "") StopIteration))
  else if (path =? "notas.txt") then Raise (mkException "PdfReadError" "EOF marker not found")
  else Raise (mkException "FileNotFoundError"
                ("[Errno 2] No such file or directory: '" ++ path ++ "'")).

Definition on_disk (path : string) : bool :=
  existsb (String.eqb path)
    ["leis.pdf"; "quebrado.pdf"; "vazio.pdf"; "imagem.pdf"; "notas.txt"].

Definition world (args : list string) : World :=
  mkWorld ("extract_pdf.py" :: args) on_disk library.

(** A second run: the other files are gone and the library answers
    differently for them, but ["leis.pdf"] is unchanged. *)
Definition later_world (args : list string) : World :=
  mkWorld ("extract_pdf.py" :: args)
    (fun path => path =? "leis.pdf")
    (fun path =>
       if path =? "leis.pdf" then Ok three_pages
       else Raise (mkException "PdfReadError" "Cannot read an empty file")).

(** A one-page document whose text is the lone surrogate U+D800. *)
Definition surrogate_page : Reader :=
  mkReader (NextPage (text_page (Str (LoneSurrogate 55296) EmptyStr))
              StopIteration).

Definition surrogate_world (args : list string) : World :=
  mkWorld ("extract_pdf.py" :: args) (fun _ => true) (fun _ => Ok surrogate_page).

End Samples.

(** ** What the library yields, and what the spec promises for it *)

Local Open Scope pystr_scope.

(** The texts of the pages in iteration order, when every step of the
    iteration and every [extract_text] call succeeds; the first failure
    otherwise. *)
Fixpoint page_texts (it : PageIter) : Py (list pystr) :=
  match it with
  | StopIteration => Ok []
  | NextPage page rest =>
      (t <- extract_text page ;;
       ts <- page_texts rest ;;
       Ok (t :: ts))%py
  | NextRaises e => Raise e
  end.

(** Opening the document at [path] and reading all its pages: the page texts,
    or the first failure met while opening, decoding or extracting. *)
Definition library_run (w : World) (path : string) : Py (list pystr) :=
  (reader <- PdfReader w path ;;
   page_texts (pages reader))%py.

(** [p0 + "\n" + p1 + "\n" + ... + pn + "\n"], as the spec writes it. *)
Fixpoint joined (ps : list pystr) : pystr :=
  match ps with
  | [] => ""
  | p :: rest => p ++ nl ++ joined rest
  end.

(** The diagnostic string for the failure [e]. *)
Definition diagnostic (e : Exception) : pystr := "Erro ao ler PDF: " ++ str e.

(** The string the spec expects from the Extractor for the document at
    [path]. *)
Definition expected_text (w : World) (path : string) : pystr :=
  match library_run w path with
  | Ok ps => joined ps
  | Raise e => diagnostic e
  end.

(** A page iterator that first hands out pages with the texts [ps], then
    behaves as [tail]. *)
Fixpoint pages_then (ps : list pystr) (tail : PageIter) : PageIter :=
  match ps with
  | [] => tail
  | p :: rest => NextPage (mkPage (Ok p)) (pages_then rest tail)
  end.

(** The failure of the very next step of the iteration, if it fails: fetching
    the page raises, or its [extract_text] does. *)
Definition fails_now (it : PageIter) : option Exception :=
  match it with
  | StopIteration => None
  | NextPage page _ =>
      match extract_text page with
      | Ok _ => None
      | Raise e => Some e
      end
  | NextRaises e => Some e
  end.

(** [sub] occurs in [s]. *)
Definition contains (s sub : pystr) : Prop :=
  exists pre post, s = pre ++ sub ++ post.

(** [s] ends with [suffix]. *)
Definition ends_with (s suffix : pystr) : Prop :=
  exists pre, s = pre ++ suffix.

(** The world [w] started with the command line [args] instead of its own. *)
Definition with_argv (w : World) (args : list string) : World :=
  mkWorld args (path_exists w) (PdfReader w).

(** The page iteration of a document whose pages are those of a first
    document followed by those of a second one: when the first iteration ends
    the second one starts; a failure ends everything. *)
Fixpoint iter_app (first second : PageIter) : PageIter :=
  match first with
  | StopIteration => second
  | NextPage page rest => NextPage page (iter_app rest second)
  | NextRaises e => NextRaises e
  end.

(** No newline character in [s]. *)
Fixpoint newline_free (s : pystr) : bool :=
  match s with
  | EmptyStr => true
  | Str (Byte b) rest => negb (Ascii.eqb b "010") && newline_free rest
  | Str (LoneSurrogate _) rest => newline_free rest
  end.

(** The last character of [s], if it has one. *)
Fixpoint last_char (s : pystr) : option pychar :=
  match s with
  | EmptyStr => None
  | Str c rest =>
      match last_char rest with
      | None => Some c
      | Some c' => Some c'
      end
  end.

(** The lengths of the texts [ps], added up. *)
Definition total_length (ps : list pystr) : nat :=
  list_sum (map pystr_length ps).

(** ** Facts about strings *)

Section StringFacts.

Lemma append_assoc (a b c : pystr) : (a ++ b) ++ c = a ++ (b ++ c).
Proof.
  induction a as [|ch a IH]; simpl; [reflexivity|].
  now rewrite IH.
Qed.

Lemma append_nil_r (a : pystr) : a ++ "" = a.
Proof.
  induction a as [|ch a IH]; simpl; [reflexivity|].
  now rewrite IH.
Qed.

Lemma length_append (a b : pystr) :
  pystr_length (a ++ b) = pystr_length a + pystr_length b.
Proof.
  induction a as [|ch a IH]; simpl; [reflexivity|].
  now rewrite IH.
Qed.

(** Bytes go through the encoder unchanged. *)
Lemma encode_of_bytes (s : string) : encode s = Some s.
Proof.
  induction s as [|b s IH]; simpl; [reflexivity|].
  now rewrite IH.
Qed.

(** What can be encoded is the text of its bytes. *)
Lemma encode_Some (s : pystr) (bytes : string) :
  encode s = Some bytes -> s = bytes.
Proof.
  revert bytes.
  induction s as [|[b|code_point] s IH]; simpl; intros bytes encoded.
  - now injection encoded as <-.
  - destruct (encode s) as [rest|]; [|discriminate].
    injection encoded as <-. simpl.
    now rewrite (IH rest eq_refl).
  - discriminate.
Qed.

Lemma of_bytes_append (a b : string) :
  of_bytes (a ++ b)%string = a ++ b.
Proof.
  induction a as [|ch a IH]; simpl; [reflexivity|].
  now rewrite IH.
Qed.

Lemma of_bytes_inj (a b : string) : of_bytes a = of_bytes b -> a = b.
Proof.
  intros same.
  assert (encoded : encode a = encode b) by now rewrite same.
  rewrite !encode_of_bytes in encoded.
  now injection encoded.
Qed.

Lemma encode_append (a b : pystr) :
  encode (a ++ b) =
  match encode a, encode b with
  | Some x, Some y => Some (x ++ y)%string
  | _, _ => None
  end.
Proof.
  induction a as [|[ch|code_point] a IH]; simpl.
  - now destruct (encode b).
  - rewrite IH. now destruct (encode a), (encode b).
  - reflexivity.
Qed.

(** On byte strings [ends_with] is the suffix relation of byte strings. *)
Lemma ends_with_of_bytes (s suffix : string) :
  ends_with s suffix <-> exists pre : string, s = (pre ++ suffix)%string.
Proof.
  split.
  - intros [pre same].
    assert (encoded : encode s = encode (pre ++ suffix)) by now rewrite same.
    rewrite (encode_of_bytes s), encode_append, (encode_of_bytes suffix)
      in encoded.
    destruct (encode pre) as [bytes|]; [|discriminate].
    injection encoded as ->. now exists bytes.
  - intros [pre ->]. exists pre. apply of_bytes_append.
Qed.

Lemma joined_app (ps qs : list pystr) :
  joined (ps ++ qs)%list = joined ps ++ joined qs.
Proof.
  induction ps as [|p ps IH]; simpl; [reflexivity|].
  now rewrite IH, !append_assoc.
Qed.

(** With at least one page, the joined text ends with a newline. *)
Lemma joined_ends_with_nl (ps : list pystr) :
  ps <> [] -> ends_with (joined ps) nl.
Proof.
  intros nonempty.
  destruct (exists_last nonempty) as [front [p ->]].
  exists (joined front ++ p).
  rewrite joined_app. cbn [joined].
  rewrite (append_nil_r nl).
  now rewrite append_assoc.
Qed.

End StringFacts.

(** ** The Extractor: the loop and the function *)

Section ExtractorFacts.

(** The loop appends to the accumulator the joined texts of the pages, or
    stops at the first failure. *)
Lemma for_page_in_page_texts (it : PageIter) : forall text : pystr,
  for_page_in it text =
  (ps <- page_texts it ;; Ok (text ++ joined ps))%py.
Proof.
  induction it as [|page rest IH|e]; intros text; simpl.
  - now rewrite append_nil_r.
  - destruct (extract_text page) as [t|e]; simpl; [|reflexivity].
    rewrite IH.
    destruct (page_texts rest) as [ts|e]; simpl; [|reflexivity].
    now rewrite !append_assoc.
  - reflexivity.
Qed.

(** A failure right after pages that yielded texts is the failure of the
    whole iteration. *)
Lemma page_texts_pages_then (ps : list pystr) (tail : PageIter) (e : Exception) :
  fails_now tail = Some e ->
  page_texts (pages_then ps tail) = Raise e.
Proof.
  intros failing.
  induction ps as [|p ps IH]; simpl.
  - destruct tail as [|page rest|e']; simpl in *.
    + discriminate.
    + destruct (extract_text page) as [t|e']; [discriminate|].
      now injection failing as ->.
    + now injection failing as ->.
  - now rewrite IH.
Qed.

(** Conversely, an iteration that fails did hand out some pages whose texts
    were extracted, and then failed on the next step. *)
Lemma page_texts_raise_inv (it : PageIter) (e : Exception) :
  page_texts it = Raise e ->
  exists ps tail, it = pages_then ps tail /\ fails_now tail = Some e.
Proof.
  induction it as [|page rest IH|e']; simpl; intros failure.
  - discriminate.
  - destruct page as [[t|e']]; simpl in failure.
    + destruct (page_texts rest) as [ts|e'']; [discriminate|].
      destruct (IH failure) as [ps [tail [-> failing]]].
      now exists (t :: ps), tail.
    + exists [], (NextPage (mkPage (Raise e')) rest). split; [reflexivity|].
      simpl. now injection failure as ->.
  - exists [], (NextRaises e'). split; [reflexivity|].
    simpl. now injection failure as ->.
Qed.

(** The function returns, and what it returns is the text the spec expects:
    the joined page texts, or the diagnostic of the first failure. *)
Lemma extract_text_from_pdf_expected (w : World) (pdf_path : string) :
  extract_text_from_pdf w pdf_path = Ok (expected_text w pdf_path).
Proof.
  unfold extract_text_from_pdf, expected_text, library_run.
  destruct (PdfReader w pdf_path) as [reader|e]; simpl; [|reflexivity].
  rewrite for_page_in_page_texts.
  destruct (page_texts (pages reader)) as [ps|e]; reflexivity.
Qed.

End ExtractorFacts.

(** ** Claims about the Extractor *)

(** C1. When the library opens the document at [pdf_path] and its pages, in
    iteration order, yield the texts [ps = [p0; ...; pn]], the function
    returns exactly [p0 + "\n" + ... + pn + "\n"]: every page text followed
    by a newline, the last one too, in page order.  In particular, a single
    page with the empty text gives the one-character string ["\n"]. *)
Theorem extract_text_from_pdf_joins_pages
  (w : World) (pdf_path : string) (reader : Reader) (ps : list pystr) :
  PdfReader w pdf_path = Ok reader ->
  page_texts (pages reader) = Ok ps ->
  extract_text_from_pdf w pdf_path = Ok (joined ps) /\
  (ps = [""] -> extract_text_from_pdf w pdf_path = Ok nl).
Proof.
  intros opened texts.
  assert (result : extract_text_from_pdf w pdf_path = Ok (joined ps)).
  { rewrite extract_text_from_pdf_expected.
    unfold expected_text, library_run.
    now rewrite opened; simpl; rewrite texts. }
  split; [exact result|].
  intros ->. exact result.
Qed.

Lemma extract_text_from_pdf_joins_pages_witness :
  extract_text_from_pdf (Samples.world []) "leis.pdf"
    = Ok ("Artigo 1" ++ nl ++ "" ++ nl ++ "Artigo 3" ++ nl) /\
  extract_text_from_pdf (Samples.world []) "imagem.pdf" = Ok nl.
Proof.
  split.
  - exact (proj1 (extract_text_from_pdf_joins_pages
                    (Samples.world []) "leis.pdf" Samples.three_pages
                    ["Artigo 1"; ""; "Artigo 3"] eq_refl eq_refl)).
  - exact (proj2 (extract_text_from_pdf_joins_pages
                    (Samples.world []) "imagem.pdf"
                    (mkReader (NextPage (Samples.text_page "") StopIteration))
                    [""] eq_refl eq_refl) eq_refl).
Defined.

(** C2. For every path the function returns a string, it never raises; and
    when opening, decoding or extracting a page's text fails with [e], what
    it returns is the diagnostic string, which contains [str(e)]. *)
Theorem extract_text_from_pdf_never_raises (w : World) (pdf_path : string) :
  (exists s, extract_text_from_pdf w pdf_path = Ok s) /\
  (forall e, library_run w pdf_path = Raise e ->
     extract_text_from_pdf w pdf_path = Ok (diagnostic e) /\
     contains (diagnostic e) (str e)).
Proof.
  split.
  - exists (expected_text w pdf_path). apply extract_text_from_pdf_expected.
  - intros e failure. split.
    + rewrite extract_text_from_pdf_expected. unfold expected_text.
      now rewrite failure.
    + exists "Erro ao ler PDF: ", "". unfold diagnostic.
      now rewrite append_nil_r.
Qed.

Lemma extract_text_from_pdf_never_raises_witness :
  extract_text_from_pdf (Samples.world []) "notas.txt"
    = Ok "Erro ao ler PDF: EOF marker not found" /\
  contains "Erro ao ler PDF: EOF marker not found" "EOF marker not found".
Proof.
  exact (proj2 (extract_text_from_pdf_never_raises (Samples.world []) "notas.txt")
               (mkException "PdfReadError" "EOF marker not found") eq_refl).
Defined.

(** C4. All or nothing: when the library, after handing out pages whose
    texts [ps] were extracted, fails with [e] on the next page, the function
    returns the diagnostic string of [e] and nothing else; the texts [ps] are
    not part of the result. *)
Theorem extract_text_from_pdf_all_or_nothing
  (w : World) (pdf_path : string) (reader : Reader)
  (ps : list pystr) (tail : PageIter) (e : Exception) :
  PdfReader w pdf_path = Ok reader ->
  pages reader = pages_then ps tail ->
  fails_now tail = Some e ->
  extract_text_from_pdf w pdf_path = Ok ("Erro ao ler PDF: " ++ str e).
Proof.
  intros opened shape failing.
  rewrite extract_text_from_pdf_expected.
  unfold expected_text, library_run.
  rewrite opened; simpl.
  rewrite shape, (page_texts_pages_then ps tail e failing).
  reflexivity.
Qed.

Lemma extract_text_from_pdf_all_or_nothing_witness :
  extract_text_from_pdf (Samples.world []) "quebrado.pdf"
    = Ok "Erro ao ler PDF: Invalid Elementary Object".
Proof.
  exact (extract_text_from_pdf_all_or_nothing
           (Samples.world []) "quebrado.pdf" Samples.broken_mid
           ["Artigo 1"]
           (NextPage (mkPage (Raise (mkException "PdfReadError" "Invalid Elementary Object")))
              (NextPage (Samples.text_page "Artigo 3") StopIteration))
           (mkException "PdfReadError" "Invalid Elementary Object")
           eq_refl eq_refl eq_refl).
Defined.

(** C10. A document that opens and has no page gives the empty string: no
    newline and no diagnostic. *)
Theorem extract_text_from_pdf_zero_pages
  (w : World) (pdf_path : string) (reader : Reader) :
  PdfReader w pdf_path = Ok reader ->
  pages reader = StopIteration ->
  extract_text_from_pdf w pdf_path = Ok "".
Proof.
  intros opened empty.
  unfold extract_text_from_pdf.
  rewrite opened; simpl.
  now rewrite empty.
Qed.

Lemma extract_text_from_pdf_zero_pages_witness :
  extract_text_from_pdf (Samples.world []) "vazio.pdf" = Ok "".
Proof.
  exact (extract_text_from_pdf_zero_pages
           (Samples.world []) "vazio.pdf" (mkReader StopIteration)
           eq_refl eq_refl).
Defined.

(** ** The entry point: the three ways a run can go *)

Local Open Scope string_scope.

Section EntryPointFacts.

Variable w : World.

(** Fewer than two entries in [sys.argv]: usage message, status 1. *)
Lemma run_without_argument :
  (length (argv w) < 2)%nat ->
  run w = Stopped (SystemExit 1) (mkProcess (usage_message ++ nl) []).
Proof.
  intros short.
  unfold run, main, bind, when, print.
  apply Nat.ltb_lt in short. rewrite short.
  rewrite (encode_of_bytes usage_message).
  reflexivity.
Qed.

Lemma argv_long_enough (pdf_path : string) :
  nth_error (argv w) 1 = Some pdf_path ->
  (length (argv w) <? 2)%nat = false.
Proof.
  intros second. apply Nat.ltb_ge.
  assert (1 < length (argv w))%nat; [|lia].
  apply nth_error_Some. now rewrite second.
Qed.

(** [sys.argv[1]] does not exist: message with the path, status 1. *)
Lemma run_missing_file (pdf_path : string) :
  nth_error (argv w) 1 = Some pdf_path ->
  path_exists w pdf_path = false ->
  run w = Stopped (SystemExit 1)
            (mkProcess ((not_found_prefix ++ pdf_path) ++ nl) []).
Proof.
  intros second missing.
  unfold run, main, bind, when, eval, list_index, print.
  rewrite (argv_long_enough pdf_path second), second.
  rewrite missing.
  rewrite (encode_of_bytes (not_found_prefix ++ pdf_path)).
  reflexivity.
Qed.

(** [sys.argv[1]] exists: the Extractor is called on it, once, and its result
    goes to [print]; when it can be encoded it is written and the script runs
    to its end, otherwise [print] raises and nothing is written. *)
Lemma run_existing_file (pdf_path : string) :
  nth_error (argv w) 1 = Some pdf_path ->
  path_exists w pdf_path = true ->
  run w =
  match encode (expected_text w pdf_path) with
  | Some bytes => Continue tt (mkProcess (bytes ++ nl) [pdf_path])
  | None => Stopped (Uncaught UnicodeEncodeError) (mkProcess "" [pdf_path])
  end.
Proof.
  intros second present.
  unfold run, main, bind, when, eval, list_index, call_extract_text_from_pdf,
    print.
  rewrite (argv_long_enough pdf_path second), second.
  rewrite present.
  rewrite extract_text_from_pdf_expected.
  cbv beta iota delta [ret negb eval].
  destruct (encode (expected_text w pdf_path)); reflexivity.
Qed.

(** The Extractor is called exactly when [sys.argv[1]] is there and names an
    existing entry. *)
Lemma calls_nonempty :
  calls w <> [] ->
  exists pdf_path,
    nth_error (argv w) 1 = Some pdf_path /\ path_exists w pdf_path = true.
Proof.
  unfold calls. intros called.
  destruct (nth_error (argv w) 1) as [pdf_path|] eqn:second.
  - destruct (path_exists w pdf_path) eqn:present.
    + now exists pdf_path.
    + now rewrite (run_missing_file pdf_path second present) in called.
  - apply nth_error_None in second.
    rewrite run_without_argument in called by lia.
    now contradiction called.
Qed.

(** In that case it is called once, whatever [print] does afterwards. *)
Lemma calls_existing_file (pdf_path : string) :
  nth_error (argv w) 1 = Some pdf_path ->
  path_exists w pdf_path = true ->
  calls w = [pdf_path].
Proof.
  intros second present. unfold calls.
  rewrite (run_existing_file pdf_path second present).
  now destruct (encode (expected_text w pdf_path)).
Qed.

End EntryPointFacts.

(** ** Claims about the entry point *)

(** C3, as the spec states it, fails when the text that was extracted cannot
    be encoded for standard output: [print(text)] is outside the [try], its
    [UnicodeEncodeError] is caught by nothing, and the status is 1 although
    the path names an existing file. *)
Lemma unencodable_text_exits_one :
  ~ (nth_error (argv (Samples.surrogate_world ["riscado.pdf"])) 1
       = Some "riscado.pdf" ->
     path_exists (Samples.surrogate_world ["riscado.pdf"]) "riscado.pdf" = true ->
     status (Samples.surrogate_world ["riscado.pdf"]) = 0%Z).
Proof.
  intros exits_zero.
  specialize (exits_zero eq_refl eq_refl).
  vm_compute in exits_zero. discriminate.
Qed.

(** C3, amended.  When [sys.argv[1]] is there and names an existing
    filesystem entry, the Extractor returns a string: the joined page texts,
    or the diagnostic string of the failure.  If standard output can encode
    that string, the process prints it and exits with status 0, so a failure
    of the extraction does not change the status.  If it cannot, [print]
    raises, nothing is written and the status is 1. *)
Theorem main_existing_path_exits_zero (w : World) (pdf_path : string) :
  nth_error (argv w) 1 = Some pdf_path ->
  path_exists w pdf_path = true ->
  exists s,
    extract_text_from_pdf w pdf_path = Ok s /\
    match library_run w pdf_path with
    | Ok ps => s = joined ps
    | Raise e => s = diagnostic e
    end /\
    (forall bytes, encode s = Some bytes ->
       status w = 0%Z /\ output w = bytes ++ nl) /\
    (encode s = None -> status w = 1%Z /\ output w = "").
Proof.
  intros second present.
  unfold status, output.
  rewrite (run_existing_file w pdf_path second present).
  exists (expected_text w pdf_path).
  split; [apply extract_text_from_pdf_expected|].
  split.
  { unfold expected_text. destruct (library_run w pdf_path); reflexivity. }
  split.
  - intros bytes ->. split; reflexivity.
  - intros ->. split; reflexivity.
Qed.

Lemma main_existing_path_exits_zero_witness :
  exists s,
    extract_text_from_pdf (Samples.world ["notas.txt"]) "notas.txt" = Ok s /\
    s = diagnostic (mkException "PdfReadError" "EOF marker not found") /\
    (forall bytes, encode s = Some bytes ->
       status (Samples.world ["notas.txt"]) = 0%Z /\
       output (Samples.world ["notas.txt"]) = bytes ++ nl) /\
    (encode s = None ->
       status (Samples.world ["notas.txt"]) = 1%Z /\
       output (Samples.world ["notas.txt"]) = "").
Proof.
  exact (main_existing_path_exits_zero
           (Samples.world ["notas.txt"]) "notas.txt" eq_refl eq_refl).
Defined.

(** C6. With no path argument ([sys.argv] has fewer than two entries) the
    process prints the usage message to standard output and exits with
    status 1; the Extractor is not called. *)
Theorem main_without_argument (w : World) :
  (length (argv w) < 2)%nat ->
  output w = usage_message ++ nl /\
  status w = 1%Z /\
  calls w = [].
Proof.
  intros short.
  unfold output, status, calls.
  now rewrite (run_without_argument w short).
Qed.

Lemma main_without_argument_witness :
  output (Samples.world []) = "Uso: python extract_pdf.py <caminho_do_pdf>" ++ nl /\
  status (Samples.world []) = 1%Z /\
  calls (Samples.world []) = [].
Proof.
  apply (main_without_argument (Samples.world [])).
  simpl. lia.
Defined.

(** C7. When the path argument [sys.argv[1]] names no existing filesystem
    entry, the process prints the not-found message followed by that exact
    path to standard output and exits with status 1; the Extractor is not
    called. *)
Theorem main_missing_file (w : World) (pdf_path : string) :
  nth_error (argv w) 1 = Some pdf_path ->
  path_exists w pdf_path = false ->
  output w = "Arquivo não encontrado: " ++ pdf_path ++ nl /\
  status w = 1%Z /\
  calls w = [].
Proof.
  intros second missing.
  unfold output, status, calls.
  rewrite (run_missing_file w pdf_path second missing); simpl.
  repeat split.
Qed.

Lemma main_missing_file_witness :
  output (Samples.world ["nada.pdf"]) = "Arquivo não encontrado: nada.pdf" ++ nl /\
  status (Samples.world ["nada.pdf"]) = 1%Z /\
  calls (Samples.world ["nada.pdf"]) = [].
Proof.
  exact (main_missing_file (Samples.world ["nada.pdf"]) "nada.pdf"
           eq_refl eq_refl).
Defined.

(** C8, as the spec states it, fails: with two path arguments on the command
    line the Extractor is still called (on the first of them). *)
Lemma extraction_with_two_arguments :
  ~ (calls (Samples.world ["leis.pdf"; "outro.pdf"]) <> [] ->
     length (argv (Samples.world ["leis.pdf"; "outro.pdf"])) = 2%nat).
Proof.
  intros exactly_one.
  assert (called : calls (Samples.world ["leis.pdf"; "outro.pdf"]) <> [])
    by (vm_compute; discriminate).
  apply exactly_one in called.
  vm_compute in called. discriminate.
Qed.

(** C8, amended.  The entry point requires at least one positional argument:
    the Extractor is called only when [sys.argv] has a path argument; it is
    then called once, on the first path argument, and the arguments after it
    are ignored (the run is the one of the command line cut after the first
    path argument). *)
Theorem extraction_needs_a_path_argument (w : World) :
  calls w <> [] ->
  (2 <= length (argv w))%nat /\
  (exists pdf_path, nth_error (argv w) 1 = Some pdf_path /\ calls w = [pdf_path]) /\
  run w = run (with_argv w (firstn 2 (argv w))).
Proof.
  intros called.
  destruct (calls_nonempty w called) as [pdf_path [second present]].
  assert (long : (1 < length (argv w))%nat)
    by (apply nth_error_Some; now rewrite second).
  split; [lia|]. split.
  - exists pdf_path. split; [exact second|].
    exact (calls_existing_file w pdf_path second present).
  - assert (second' : nth_error (argv (with_argv w (firstn 2 (argv w)))) 1
                      = Some pdf_path).
    { change (nth_error (firstn 2 (argv w)) 1 = Some pdf_path).
      rewrite nth_error_firstn. exact second. }
    rewrite (run_existing_file w pdf_path second present).
    rewrite (run_existing_file _ pdf_path second' present).
    reflexivity.
Qed.

Lemma extraction_needs_a_path_argument_witness :
  (2 <= length (argv (Samples.world ["leis.pdf"; "outro.pdf"])))%nat /\
  (exists pdf_path,
     nth_error (argv (Samples.world ["leis.pdf"; "outro.pdf"])) 1 = Some pdf_path /\
     calls (Samples.world ["leis.pdf"; "outro.pdf"]) = [pdf_path]) /\
  run (Samples.world ["leis.pdf"; "outro.pdf"]) = run (Samples.world ["leis.pdf"]).
Proof.
  apply (extraction_needs_a_path_argument (Samples.world ["leis.pdf"; "outro.pdf"])).
  vm_compute. discriminate.
Defined.

(** C9, as the spec states it, fails for a document without pages: the
    extraction succeeds with the empty string, and the output is the single
    newline of [print]. *)
Lemma zero_pages_output_one_newline :
  ~ (PdfReader (Samples.world ["vazio.pdf"]) "vazio.pdf" = Ok (mkReader StopIteration) ->
     page_texts (pages (mkReader StopIteration)) = Ok [] ->
     ends_with (output (Samples.world ["vazio.pdf"])) (nl ++ nl)).
Proof.
  intros two_newlines.
  destruct (two_newlines eq_refl eq_refl) as [pre out].
  assert (len : pystr_length (output (Samples.world ["vazio.pdf"])) = 1%nat)
    by reflexivity.
  rewrite out, length_append in len.
  change (pystr_length (nl ++ nl)) with 2%nat in len.
  lia.
Qed.

(** C9, amended.  On the extraction path, when standard output can encode
    the value returned by [extract_text_from_pdf], what is written is that
    value followed by the newline of [print].  Hence for a document extracted
    with at least one page the output ends in two newlines, for a document
    without pages it is one newline, and a diagnostic string is printed
    followed by one newline. *)
Theorem main_prints_result_and_newline
  (w : World) (pdf_path : string) (s : pystr) (bytes : string) :
  nth_error (argv w) 1 = Some pdf_path ->
  path_exists w pdf_path = true ->
  extract_text_from_pdf w pdf_path = Ok s ->
  encode s = Some bytes ->
  output w = bytes ++ nl /\
  (forall ps, library_run w pdf_path = Ok ps ->
     s = joined ps /\
     (ps <> [] -> ends_with (output w) (nl ++ nl)) /\
     (ps = [] -> output w = nl)) /\
  (forall e, library_run w pdf_path = Raise e ->
     s = diagnostic e).
Proof.
  intros second present returned encoded.
  rewrite extract_text_from_pdf_expected in returned.
  injection returned as <-.
  assert (out : output w = bytes ++ nl).
  { unfold output.
    rewrite (run_existing_file w pdf_path second present), encoded.
    reflexivity. }
  split; [exact out|]. split.
  - intros ps texts.
    assert (text : expected_text w pdf_path = joined ps)
      by (unfold expected_text; now rewrite texts).
    split; [exact text|]. split.
    + intros nonempty.
      destruct (joined_ends_with_nl ps nonempty) as [pre last].
      exists pre.
      rewrite out, !of_bytes_append.
      rewrite <- (encode_Some _ _ encoded), text, last.
      apply append_assoc.
    + intros ->. rewrite out.
      rewrite text in encoded. now injection encoded as <-.
  - intros e failure. unfold expected_text. now rewrite failure.
Qed.

Lemma main_prints_result_and_newline_witness :
  output (Samples.world ["leis.pdf"])
    = ("Artigo 1" ++ nl ++ "" ++ nl ++ "Artigo 3" ++ nl) ++ nl /\
  ends_with (output (Samples.world ["leis.pdf"])) (nl ++ nl).
Proof.
  destruct (main_prints_result_and_newline
              (Samples.world ["leis.pdf"]) "leis.pdf"
              (joined [of_bytes "Artigo 1"; of_bytes ""; of_bytes "Artigo 3"])
              ("Artigo 1" ++ nl ++ "" ++ nl ++ "Artigo 3" ++ nl)
              eq_refl eq_refl eq_refl eq_refl)
    as [out [success _]].
  split; [exact out|].
  destruct (success [of_bytes "Artigo 1"; of_bytes ""; of_bytes "Artigo 3"] eq_refl)
    as [_ [two _]].
  apply two. discriminate.
Defined.

(** ** The entry point, case by case *)

(** A run goes one of three ways, decided by [sys.argv] and [os.path.exists];
    on the third way [print] decides how it ends. *)
Lemma run_cases (w : World) :
  ((length (argv w) < 2)%nat /\
   run w = Stopped (SystemExit 1) (mkProcess (usage_message ++ nl) [])) \/
  (exists pdf_path,
     nth_error (argv w) 1 = Some pdf_path /\
     path_exists w pdf_path = false /\
     run w = Stopped (SystemExit 1)
               (mkProcess ((not_found_prefix ++ pdf_path) ++ nl) [])) \/
  (exists pdf_path,
     nth_error (argv w) 1 = Some pdf_path /\
     path_exists w pdf_path = true /\
     run w =
     match encode (expected_text w pdf_path) with
     | Some bytes => Continue tt (mkProcess (bytes ++ nl) [pdf_path])
     | None => Stopped (Uncaught UnicodeEncodeError) (mkProcess "" [pdf_path])
     end).
Proof.
  destruct (nth_error (argv w) 1) as [pdf_path|] eqn:second.
  - destruct (path_exists w pdf_path) eqn:present.
    + right; right. exists pdf_path.
      now rewrite (run_existing_file w pdf_path second present).
    + right; left. exists pdf_path.
      now rewrite (run_missing_file w pdf_path second present).
  - left. apply nth_error_None in second.
    assert (short : (length (argv w) < 2)%nat) by lia.
    now rewrite (run_without_argument w short).
Qed.

(** ** Further properties of the entry point *)



(** X2. The exit status is 0 exactly when the Extractor was called and
    standard output could encode the string it returned; the Extractor is
    called at most once in a run. *)
Theorem status_zero_iff_extracted_and_printed (w : World) :
  (status w = 0%Z <->
   exists pdf_path s bytes,
     calls w = [pdf_path] /\
     extract_text_from_pdf w pdf_path = Ok s /\
     encode s = Some bytes) /\
  (length (calls w) <= 1)%nat.
Proof.
  unfold status, calls.
  destruct (run_cases w)
    as [[_ ->]|[[pdf_path [_ [_ ->]]]|[pdf_path [_ [_ ->]]]]].
  - split; [split|simpl; lia]; [discriminate|].
    now intros [pdf_path [s [bytes [called _]]]].
  - split; [split|simpl; lia]; [discriminate|].
    now intros [pdf_path' [s [bytes [called _]]]].
  - destruct (encode (expected_text w pdf_path)) as [bytes|] eqn:encoded.
    + split; [split|simpl; lia]; [|reflexivity].
      intros _. exists pdf_path, (expected_text w pdf_path), bytes.
      repeat split; [apply extract_text_from_pdf_expected|exact encoded].
    + split; [split|simpl; lia]; [discriminate|].
      intros [pdf_path' [s [bytes [called [returned encoded']]]]].
      injection called as <-.
      rewrite extract_text_from_pdf_expected in returned.
      injection returned as <-.
      now rewrite encoded in encoded'.
Qed.

Lemma status_zero_iff_extracted_and_printed_witness :
  status (Samples.world ["leis.pdf"]) = 0%Z.
Proof.
  apply (proj1 (status_zero_iff_extracted_and_printed
                  (Samples.world ["leis.pdf"]))).
  exists "leis.pdf",
         (joined [of_bytes "Artigo 1"; of_bytes ""; of_bytes "Artigo 3"]),
         ("Artigo 1" ++ nl ++ "" ++ nl ++ "Artigo 3" ++ nl).
  repeat split.
Defined.



(** X4. A run depends on the command line only through [sys.argv[1]], and on
    the environment only through what [os.path.exists] and [PdfReader]
    answer for that path: the program name, further arguments and other
    files do not matter. *)
Theorem run_depends_on_first_argument (w1 w2 : World) :
  nth_error (argv w1) 1 = nth_error (argv w2) 1 ->
  (forall pdf_path, nth_error (argv w1) 1 = Some pdf_path ->
     path_exists w1 pdf_path = path_exists w2 pdf_path /\
     PdfReader w1 pdf_path = PdfReader w2 pdf_path) ->
  run w1 = run w2.
Proof.
  intros same_second same_answers.
  destruct (nth_error (argv w1) 1) as [pdf_path|] eqn:second.
  - destruct (same_answers pdf_path eq_refl) as [same_exists same_reader].
    symmetry in same_second.
    assert (same_text : expected_text w1 pdf_path = expected_text w2 pdf_path).
    { unfold expected_text, library_run. now rewrite same_reader. }
    destruct (path_exists w1 pdf_path) eqn:present; symmetry in same_exists.
    + rewrite (run_existing_file w1 pdf_path second present).
      rewrite (run_existing_file w2 pdf_path same_second same_exists).
      now rewrite same_text.
    + rewrite (run_missing_file w1 pdf_path second present).
      now rewrite (run_missing_file w2 pdf_path same_second same_exists).
  - symmetry in same_second.
    apply nth_error_None in second, same_second.
    rewrite !run_without_argument by lia.
    reflexivity.
Qed.

Lemma run_depends_on_first_argument_witness :
  run (Samples.world ["leis.pdf"; "outro.pdf"])
  = run (mkWorld ["python"; "leis.pdf"]
           (path_exists (Samples.later_world []))
           (PdfReader (Samples.later_world []))).
Proof.
  apply (run_depends_on_first_argument
           (Samples.world ["leis.pdf"; "outro.pdf"])
           (mkWorld ["python"; "leis.pdf"]
              (path_exists (Samples.later_world []))
              (PdfReader (Samples.later_world [])))).
  - reflexivity.
  - intros pdf_path [= <-]. split; reflexivity.
Defined.

(** ** Further facts about strings and page lists *)

Local Open Scope pystr_scope.

Section MoreStringFacts.

Lemma last_char_app (a b : pystr) :
  last_char (a ++ b) =
  match last_char b with
  | Some c => Some c
  | None => last_char a
  end.
Proof.
  induction a as [|ch a IH]; simpl.
  - now destruct (last_char b).
  - rewrite IH. now destruct (last_char b).
Qed.

Lemma ends_with_nl_last_char (s : pystr) :
  ends_with s nl <-> last_char s = Some (Byte "010").
Proof.
  split.
  - intros [pre ->]. now rewrite last_char_app.
  - induction s as [|ch s IH]; simpl; [discriminate|].
    destruct (last_char s) as [c|] eqn:last.
    + intros is_nl. destruct (IH is_nl) as [pre ->].
      now exists (Str ch pre).
    + destruct s as [|ch' s']; simpl in last.
      * intros [= ->]. now exists "".
      * now destruct (last_char s').
Qed.

Lemma length_joined (ps : list pystr) :
  pystr_length (joined ps) = total_length ps + length ps.
Proof.
  unfold total_length.
  induction ps as [|p ps IH]; simpl; [reflexivity|].
  rewrite length_append. simpl. rewrite IH. lia.
Qed.

(** Up to the first newline, a text without newlines is determined. *)
Lemma newline_free_cut (p : pystr) : forall (q r1 r2 : pystr),
  newline_free p = true ->
  newline_free q = true ->
  p ++ nl ++ r1 = q ++ nl ++ r2 ->
  p = q /\ r1 = r2.
Proof.
  induction p as [|c p IH]; intros [|c' q] r1 r2 free_p free_q same;
    simpl in *.
  - now injection same.
  - injection same as <- _.
    now rewrite Ascii.eqb_refl in free_q.
  - injection same as -> _.
    now rewrite Ascii.eqb_refl in free_p.
  - injection same as -> rest.
    assert (free_p' : newline_free p = true)
      by (destruct c' as [b|code_point];
          [now apply andb_prop in free_p|exact free_p]).
    assert (free_q' : newline_free q = true)
      by (destruct c' as [b|code_point];
          [now apply andb_prop in free_q|exact free_q]).
    destruct (IH q r1 r2 free_p' free_q' rest) as [-> ->].
    now split.
Qed.

Lemma joined_inj (ps : list pystr) : forall qs : list pystr,
  forallb newline_free ps = true ->
  forallb newline_free qs = true ->
  joined ps = joined qs ->
  ps = qs.
Proof.
  induction ps as [|p ps IH]; intros [|q qs] free_ps free_qs same;
    simpl in *.
  - reflexivity.
  - now destruct q.
  - now destruct p.
  - apply andb_prop in free_ps as [free_p free_ps].
    apply andb_prop in free_qs as [free_q free_qs].
    destruct (newline_free_cut p q _ _ free_p free_q same) as [-> rest].
    now rewrite (IH qs free_ps free_qs rest).
Qed.

Lemma page_texts_iter_app (first second : PageIter) :
  page_texts (iter_app first second) =
  (ps <- page_texts first ;;
   qs <- page_texts second ;;
   Ok (ps ++ qs)%list)%py.
Proof.
  induction first as [|page rest IH|e]; simpl.
  - now destruct (page_texts second).
  - destruct (extract_text page) as [t|e]; simpl; [|reflexivity].
    rewrite IH.
    destruct (page_texts rest) as [ps|e]; simpl; [|reflexivity].
    now destruct (page_texts second).
  - reflexivity.
Qed.

End MoreStringFacts.

(** ** Further properties of the Extractor *)

(** X5. Documents compose: when the pages of the document at [ab] are those
    of the document at [a] followed by those of the document at [b], the text
    extracted from [ab] is the text of [a] followed by the text of [b]; when
    a part fails, [ab] gives the diagnostic of the first part that fails. *)
Theorem extract_text_from_pdf_concatenated
  (w : World) (a b ab : string) (ra rb rab : Reader) :
  PdfReader w a = Ok ra ->
  PdfReader w b = Ok rb ->
  PdfReader w ab = Ok rab ->
  pages rab = iter_app (pages ra) (pages rb) ->
  match page_texts (pages ra), page_texts (pages rb) with
  | Ok _, Ok _ =>
      exists ta tb,
        extract_text_from_pdf w a = Ok ta /\
        extract_text_from_pdf w b = Ok tb /\
        extract_text_from_pdf w ab = Ok (ta ++ tb)
  | Ok _, Raise _ => extract_text_from_pdf w ab = extract_text_from_pdf w b
  | Raise _, _ => extract_text_from_pdf w ab = extract_text_from_pdf w a
  end.
Proof.
  intros open_a open_b open_ab shape.
  rewrite !extract_text_from_pdf_expected.
  unfold expected_text, library_run.
  rewrite open_a, open_b, open_ab; simpl.
  rewrite shape, page_texts_iter_app.
  destruct (page_texts (pages ra)) as [ps|e]; simpl; [|reflexivity].
  destruct (page_texts (pages rb)) as [qs|e]; simpl; [|reflexivity].
  exists (joined ps), (joined qs).
  now rewrite joined_app.
Qed.

Lemma extract_text_from_pdf_concatenated_witness :
  exists ta tb,
    extract_text_from_pdf
      (mkWorld [] (fun _ => true)
         (fun path =>
            if path =? "ab.pdf"
            then Ok (mkReader (iter_app (pages Samples.three_pages)
                                        (pages Samples.three_pages)))
            else Ok Samples.three_pages)) "a.pdf" = Ok ta /\
    extract_text_from_pdf
      (mkWorld [] (fun _ => true)
         (fun path =>
            if path =? "ab.pdf"
            then Ok (mkReader (iter_app (pages Samples.three_pages)
                                        (pages Samples.three_pages)))
            else Ok Samples.three_pages)) "b.pdf" = Ok tb /\
    extract_text_from_pdf
      (mkWorld [] (fun _ => true)
         (fun path =>
            if path =? "ab.pdf"
            then Ok (mkReader (iter_app (pages Samples.three_pages)
                                        (pages Samples.three_pages)))
            else Ok Samples.three_pages)) "ab.pdf" = Ok (ta ++ tb).
Proof.
  exact (extract_text_from_pdf_concatenated
           (mkWorld [] (fun _ => true)
              (fun path =>
                 if path =? "ab.pdf"
                 then Ok (mkReader (iter_app (pages Samples.three_pages)
                                             (pages Samples.three_pages)))
                 else Ok Samples.three_pages))
           "a.pdf" "b.pdf" "ab.pdf"
           Samples.three_pages Samples.three_pages
           (mkReader (iter_app (pages Samples.three_pages)
                               (pages Samples.three_pages)))
           eq_refl eq_refl eq_refl eq_refl).
Defined.

(** X6. Page boundaries are not kept: two consecutive pages with the texts
    [a] and [b] give the same result as one page with the text
    [a + "\n" + b], whatever comes before and after. *)
Theorem extract_text_from_pdf_loses_page_breaks
  (w1 w2 : World) (path1 path2 : string)
  (before after : list pystr) (a b : pystr) :
  library_run w1 path1 = Ok (before ++ a :: b :: after)%list ->
  library_run w2 path2 = Ok (before ++ (a ++ nl ++ b)%pystr :: after)%list ->
  extract_text_from_pdf w1 path1 = extract_text_from_pdf w2 path2.
Proof.
  intros two_pages one_page.
  rewrite !extract_text_from_pdf_expected.
  unfold expected_text. rewrite two_pages, one_page.
  rewrite !joined_app. cbn [joined].
  now rewrite !append_assoc.
Qed.

Lemma extract_text_from_pdf_loses_page_breaks_witness :
  extract_text_from_pdf (Samples.world []) "leis.pdf"
  = extract_text_from_pdf
      (mkWorld [] (fun _ => true)
         (fun _ => Ok (mkReader (pages_then ["Artigo 1"; "" ++ nl ++ "Artigo 3"]
                                            StopIteration))))
      "leis.pdf".
Proof.
  exact (extract_text_from_pdf_loses_page_breaks
           (Samples.world [])
           (mkWorld [] (fun _ => true)
              (fun _ => Ok (mkReader (pages_then ["Artigo 1"; "" ++ nl ++ "Artigo 3"]
                                                 StopIteration))))
           "leis.pdf" "leis.pdf" ["Artigo 1"] [] "" "Artigo 3"
           eq_refl eq_refl).
Defined.

(** X7. When no page text contains a newline the page texts can be read back
    from the result: two documents extracted to the same string have the
    same page texts, page by page. *)
Theorem extract_text_from_pdf_injective_without_newlines
  (w1 w2 : World) (path1 path2 : string) (ps qs : list pystr) :
  library_run w1 path1 = Ok ps ->
  library_run w2 path2 = Ok qs ->
  forallb newline_free ps = true ->
  forallb newline_free qs = true ->
  extract_text_from_pdf w1 path1 = extract_text_from_pdf w2 path2 ->
  ps = qs.
Proof.
  intros texts1 texts2 free1 free2.
  rewrite !extract_text_from_pdf_expected.
  unfold expected_text. rewrite texts1, texts2.
  intros [= same].
  exact (joined_inj ps qs free1 free2 same).
Qed.

Lemma extract_text_from_pdf_injective_without_newlines_witness :
  ["Artigo 1"; ""; "Artigo 3"] = ["Artigo 1"; ""; "Artigo 3"].
Proof.
  exact (extract_text_from_pdf_injective_without_newlines
           (Samples.world []) (Samples.later_world [])
           "leis.pdf" "leis.pdf"
           ["Artigo 1"; ""; "Artigo 3"] ["Artigo 1"; ""; "Artigo 3"]
           eq_refl eq_refl eq_refl eq_refl eq_refl).
Defined.

(** X8. Failure is reported in the same channel as the text.  The string
    returned for a failure [e] is also the string returned for some document
    that was extracted without failure exactly when [str(e)] ends with a
    newline; for any other message the caller can tell the diagnostic from
    every extracted text. *)
Theorem extract_text_from_pdf_diagnostic_ambiguous_iff
  (w : World) (pdf_path : string) (e : Exception) :
  library_run w pdf_path = Raise e ->
  (exists w' path' ps,
     library_run w' path' = Ok ps /\
     extract_text_from_pdf w' path' = extract_text_from_pdf w pdf_path)
  <-> ends_with (str e) nl.
Proof.
  intros failure.
  rewrite extract_text_from_pdf_expected.
  unfold expected_text. rewrite failure.
  split.
  - intros [w' [path' [ps [texts same]]]].
    rewrite extract_text_from_pdf_expected in same.
    unfold expected_text in same. rewrite texts in same.
    injection same as same.
    destruct ps as [|p ps]; [discriminate same|].
    assert (last : last_char (diagnostic e) = Some (Byte "010")).
    { apply ends_with_nl_last_char. rewrite <- same.
      now apply joined_ends_with_nl. }
    unfold diagnostic in last. rewrite last_char_app in last.
    apply ends_with_nl_last_char.
    destruct (last_char (str e)) as [c|]; [exact last|discriminate last].
  - intros [message is_line].
    exists (mkWorld [] (fun _ => false)
              (fun _ => Ok (mkReader
                 (pages_then ["Erro ao ler PDF: " ++ message] StopIteration)))),
           ""%string, ["Erro ao ler PDF: " ++ message].
    split; [reflexivity|].
    rewrite extract_text_from_pdf_expected.
    unfold expected_text, library_run, diagnostic.
    cbn [PdfReader py_bind pages pages_then page_texts extract_text joined].
    rewrite is_line, (append_nil_r nl).
    now rewrite append_assoc.
Qed.

Lemma extract_text_from_pdf_diagnostic_ambiguous_iff_witness :
  ~ exists w' path' ps,
      library_run w' path' = Ok ps /\
      extract_text_from_pdf w' path'
      = extract_text_from_pdf (Samples.world []) "notas.txt".
Proof.
  intros ambiguous.
  apply (extract_text_from_pdf_diagnostic_ambiguous_iff
           (Samples.world []) "notas.txt"
           (mkException "PdfReadError" "EOF marker not found") eq_refl)
    in ambiguous.
  apply ends_with_nl_last_char in ambiguous.
  discriminate ambiguous.
Defined.

(** X9. The size of the result: for a document extracted without failure the
    returned string has as many characters as the page texts together, plus
    one per page. *)
Theorem extract_text_from_pdf_length
  (w : World) (pdf_path : string) (ps : list pystr) :
  library_run w pdf_path = Ok ps ->
  exists text,
    extract_text_from_pdf w pdf_path = Ok text /\
    pystr_length text = total_length ps + length ps.
Proof.
  intros texts.
  exists (joined ps). split; [|apply length_joined].
  rewrite extract_text_from_pdf_expected.
  unfold expected_text. now rewrite texts.
Qed.

Lemma extract_text_from_pdf_length_witness :
  exists text,
    extract_text_from_pdf (Samples.world []) "leis.pdf" = Ok text /\
    pystr_length text = 16 + 3.
Proof.
  exact (extract_text_from_pdf_length (Samples.world []) "leis.pdf"
           ["Artigo 1"; ""; "Artigo 3"] eq_refl).
Defined.
